(** * Perplex-Mini backend relay: a shallow embedding of [backend/main.py]

    The relay answers [POST /chat]: it searches the web for the query, joins
    the result snippets into a context block, adapts the client's chat history
    to the model provider's turn objects, asks the model, and shapes the
    answer and the source list into the response.

    Python [str] values are [string]s, one [ascii] per character.  A search
    result is a Python [dict] with text values, embedded as a
    [gmap string string]; subscripting a missing key raises [KeyError].  The
    two providers are outside the program: they are the fields of a
    [Providers] record, and every call the handler makes to them, like every
    line it prints, is appended to a log of events. *)

From Stdlib Require Import String Ascii List ZArith Lia.
From stdpp Require Import base option list gmap strings.
Import ListNotations.
Local Open Scope string_scope.
Local Open Scope list_scope.

(** ** Text *)

Module Text.

Definition LF : string := String (ascii_of_nat 10) EmptyString.
Definition DQUOTE : string := String (ascii_of_nat 34) EmptyString.
Definition SQUOTE : string := String (ascii_of_nat 39) EmptyString.

(** [s[:n]]: the first [n] characters of [s], all of [s] when it is
    shorter. *)
Fixpoint slice_to (n : nat) (s : string) : string :=
  match n, s with
  | S n', String c s' => String c (slice_to n' s')
  | _, _ => EmptyString
  end.

(** [sep.join(parts)] *)
Fixpoint join (sep : string) (parts : list string) : string :=
  match parts with
  | [] => EmptyString
  | [p] => p
  | p :: rest => p +:+ sep +:+ join sep rest
  end.

(** [repr(s)] for a key that holds no quote, backslash or control
    character, which is the case of the two keys the handler subscripts. *)
Definition repr (s : string) : string := SQUOTE +:+ s +:+ SQUOTE.

End Text.

(** ** Exceptions and results *)

(** The instances of [Exception] the handler body can meet: the [KeyError] of
    a failed subscript, and whatever a provider client raises, of which the
    handler only ever reads [str(e)]. *)
Inductive exn : Type :=
| KeyError (key : string)
| ProviderError (message : string).

(** [str(e)] *)
Definition str (e : exn) : string :=
  match e with
  | KeyError key => Text.repr key
  | ProviderError message => message
  end.

(** A Python [dict] with text keys and text values. *)
Abbreviation pydict := (gmap string string).

(** [d[key]] *)
Definition getitem (d : pydict) (key : string) : exn + string :=
  match d !! key with
  | Some v => inr v
  | None => inl (KeyError key)
  end.

(** ** 3. Data models *)

Record Message : Type := { role : string; content : string }.

Record QueryRequest : Type := { query : string; history : list Message }.

(** LangChain's message objects. *)
Inductive BaseMessage : Type :=
| SystemMessage (text : string)
| HumanMessage (text : string)
| AIMessage (text : string).

Definition message_content (m : BaseMessage) : string :=
  match m with
  | SystemMessage text | HumanMessage text | AIMessage text => text
  end.

(** An entry of the [sources] list: [{"title": ..., "url": ...}]. *)
Record SourceSummary : Type := { title : string; url : string }.

(** The handler's return value: [{"answer": ..., "sources": ...}]. *)
Record ChatResponse : Type := { answer : string; sources : list SourceSummary }.

(** ** 4. Helper functions *)

Definition format_message (msg : Message) : BaseMessage :=
  if String.eqb (role msg) "user"
  then HumanMessage (content msg)
  else AIMessage (content msg).

(** The loop appends one object per message, in order. *)
Fixpoint format_history_from (formatted_history : list BaseMessage)
    (messages : list Message) : list BaseMessage :=
  match messages with
  | [] => formatted_history
  | msg :: rest =>
      format_history_from (formatted_history ++ [format_message msg]) rest
  end.

Definition format_history (messages : list Message) : list BaseMessage :=
  format_history_from [] messages.

(** ** 2. Agent setup *)

(** [TavilySearchResults(max_results=3)] *)
Record TavilySearchResults : Type := { max_results : nat }.

Definition search_tool : TavilySearchResults := {| max_results := 3 |}.

(** [ChatGroq(model=..., temperature=0)] *)
Record ChatGroq : Type := { model : string; temperature : Z }.

Definition llm : ChatGroq :=
  {| model := "llama-3.3-70b-versatile"; temperature := 0 |}.

(** The system template, with the context block in the place of
    [{context}]. *)
Definition template (context : string) : string :=
  Text.LF
  +:+ "You are a helpful research assistant. " +:+ Text.LF
  +:+ "Answer the user's question based on the following context. " +:+ Text.LF
  +:+ "If the context doesn't contain the answer, say "
  +:+ Text.DQUOTE +:+ "I couldn't find that information." +:+ Text.DQUOTE
  +:+ Text.LF
  +:+ Text.LF
  +:+ "Context:" +:+ Text.LF
  +:+ context +:+ Text.LF.

(** The inputs of [chain.invoke]. *)
Record ChainInput : Type :=
  { ci_context : string; ci_question : string; ci_chat_history : list BaseMessage }.

(** [prompt]: the system message, the memory slot, the new human turn. *)
Definition prompt (inputs : ChainInput) : list BaseMessage :=
  SystemMessage (template (ci_context inputs))
  :: ci_chat_history inputs ++ [HumanMessage (ci_question inputs)].

(** ** The providers and the log of effects *)

(** The search provider gets the query and the result cap, the model
    provider the model identifier, the temperature and the messages (the
    generated text is what [StrOutputParser] keeps of its reply).  Either
    returns or raises. *)
Record Providers : Type := {
  tavily_search : string -> nat -> exn + list pydict;
  groq_chat : string -> Z -> list BaseMessage -> exn + string
}.

Inductive event : Type :=
| SearchCall (q : string) (cap : nat)
| ModelCall (model_id : string) (temp : Z) (messages : list BaseMessage)
| Printed (line : string).

(** A computation that appends to the log and returns a value or raises an
    exception of type [E]. *)
Definition io (E A : Type) : Type := list event -> list event * (E + A).

Module IO.

Definition ret {E A} (a : A) : io E A := fun log => (log, inr a).

Definition raise {E A} (e : E) : io E A := fun log => (log, inl e).

Definition bind {E A B} (c : io E A) (k : A -> io E B) : io E B :=
  fun log =>
    match c log with
    | (log', inr a) => k a log'
    | (log', inl e) => (log', inl e)
    end.

(** A pure step that returns or raises. *)
Definition lift {E A} (r : E + A) : io E A := fun log => (log, r).

Definition emit {E} (ev : event) : io E unit := fun log => (log ++ [ev], inr tt).

(** [try: c  except Exception as e: handler(e)] *)
Definition try_except {E E' A} (c : io E A) (handler : E -> io E' A) : io E' A :=
  fun log =>
    match c log with
    | (log', inr a) => (log', inr a)
    | (log', inl e) => handler e log'
    end.

End IO.

Notation "'let!' x ':=' c 'in' k" := (IO.bind c (fun x => k))
  (at level 10, x name, c at level 100, k at level 200).

(** The pure counterpart, for comprehensions that may raise. *)
Definition and_then {E A B} (r : E + A) (k : A -> E + B) : E + B :=
  match r with
  | inr a => k a
  | inl e => inl e
  end.

(** [[f(x) for x in xs]], where [f] may raise: the first exception, in list
    order, ends the comprehension. *)
Fixpoint comprehension {E A B} (f : A -> E + B) (xs : list A) : E + list B :=
  match xs with
  | [] => inr []
  | x :: rest =>
      and_then (f x) (fun y =>
      and_then (comprehension f rest) (fun ys => inr (y :: ys)))
  end.

(** [search_tool.invoke(query)] *)
Definition search_invoke (P : Providers) (tool : TavilySearchResults)
    (q : string) : io exn (list pydict) :=
  let! _ := IO.emit (SearchCall q (max_results tool)) in
  IO.lift (tavily_search P q (max_results tool)).

(** [chain.invoke(inputs)], with [chain = prompt | llm | StrOutputParser()] *)
Definition chain_invoke (P : Providers) (inputs : ChainInput) : io exn string :=
  let messages := prompt inputs in
  let! _ := IO.emit (ModelCall (model llm) (temperature llm) messages) in
  IO.lift (groq_chat P (model llm) (temperature llm) messages).

Definition print {E} (line : string) : io E unit := IO.emit (Printed line).

(** ** 5. API endpoints *)

(** [raise HTTPException(status_code=..., detail=...)] *)
Record HTTPException : Type := { status_code : nat; detail : string }.

(** [[r["content"] for r in raw_results]] *)
Definition contents (raw_results : list pydict) : exn + list string :=
  comprehension (fun r => getitem r "content") raw_results.

(** ["\n\n".join([r["content"] for r in raw_results])] *)
Definition context_of (raw_results : list pydict) : exn + string :=
  and_then (contents raw_results) (fun cs => inr (Text.join (Text.LF +:+ Text.LF) cs)).

(** [res["content"][:40] + "..."] *)
Definition title_of (text : string) : string := Text.slice_to 40 text +:+ "...".

(** [{"title": res["content"][:40] + "...", "url": res["url"]}] *)
Definition source_of (res : pydict) : exn + SourceSummary :=
  and_then (getitem res "content") (fun c =>
  and_then (getitem res "url") (fun u =>
  inr {| title := title_of c; url := u |})).

Definition sources_of (raw_results : list pydict) : exn + list SourceSummary :=
  comprehension source_of raw_results.

(** The [try] block from the second statement on, given [raw_results]. *)
Definition chat_after_search (P : Providers) (request : QueryRequest)
    (raw_results : list pydict) : io exn ChatResponse :=
  let! context_text := IO.lift (context_of raw_results) in
  let chat_history := format_history (history request) in
  let! response := chain_invoke P {| ci_context := context_text;
                                ci_question := query request;
                                ci_chat_history := chat_history |} in
  let! srcs := IO.lift (sources_of raw_results) in
  IO.ret {| answer := response; sources := srcs |}.

(** The [try] block. *)
Definition chat_body (P : Providers) (request : QueryRequest) : io exn ChatResponse :=
  let! raw_results := search_invoke P search_tool (query request) in
  chat_after_search P request raw_results.

(** The [except Exception as e] block. *)
Definition chat_except (e : exn) : io HTTPException ChatResponse :=
  let! _ := print ("Error: " +:+ str e) in
  IO.raise {| status_code := 500; detail := str e |}.

Definition chat_endpoint (P : Providers) (request : QueryRequest)
  : io HTTPException ChatResponse :=
  IO.try_except (chat_body P request) chat_except.

(** ** The request boundary

    What the framework does around the handler: it parses the body as JSON,
    validates it against [QueryRequest], calls the handler, and turns the
    returned dict, or the [HTTPException], into the HTTP response. *)

#[local] Set Warnings "-register-all".

Inductive json : Type :=
| JNull
| JBool (b : bool)
| JNum (z : Z)
| JStr (s : string)
| JArr (items : list json)
| JObj (fields : list (string * json)).

(** Member [key] of a JSON object; as in a Python dict built from the body,
    the last of several members of the same name is the one kept. *)
Fixpoint obj_get (key : string) (fields : list (string * json)) : option json :=
  match fields with
  | [] => None
  | (k, v) :: rest =>
      match obj_get key rest with
      | Some w => Some w
      | None => if String.eqb key k then Some v else None
      end
  end.

Definition has_field (key : string) (body : json) : bool :=
  match body with
  | JObj fields => match obj_get key fields with Some _ => true | None => false end
  | _ => false
  end.

(** A field annotated [str]. *)
Definition validate_str (v : json) : option string :=
  match v with
  | JStr s => Some s
  | _ => None
  end.

(** [class Message(BaseModel)]: [role: str], [content: str]. *)
Definition validate_Message (v : json) : option Message :=
  match v with
  | JObj fields =>
      r ← obj_get "role" fields ≫= validate_str;
      c ← obj_get "content" fields ≫= validate_str;
      Some {| role := r; content := c |}
  | _ => None
  end.

(** A field annotated [List[Message]]. *)
Definition validate_history (v : json) : option (list Message) :=
  match v with
  | JArr items => mapM validate_Message items
  | _ => None
  end.

(** [class QueryRequest(BaseModel)]: [query: str], and
    [history: List[Message] = []], whose default stands in when the member
    is absent. *)
Definition validate_QueryRequest (body : json) : option QueryRequest :=
  match body with
  | JObj fields =>
      q ← obj_get "query" fields ≫= validate_str;
      h ← match obj_get "history" fields with
          | None => Some []
          | Some v => validate_history v
          end;
      Some {| query := q; history := h |}
  | _ => None
  end.

Inductive http_response : Type :=
| UnprocessableEntity                       (* 422, the validation error *)
| JSONResponse (status : nat) (body : json).

Definition source_json (s : SourceSummary) : json :=
  JObj [("title", JStr (title s)); ("url", JStr (url s))].

Definition response_json (r : ChatResponse) : json :=
  JObj [("answer", JStr (answer r)); ("sources", JArr (map source_json (sources r)))].

(** The framework's handler for [HTTPException]. *)
Definition http_exception_response (exc : HTTPException) : http_response :=
  JSONResponse (status_code exc) (JObj [("detail", JStr (detail exc))]).

(** The outcome of the handler as an HTTP response. *)
Definition respond (outcome : HTTPException + ChatResponse) : http_response :=
  match outcome with
  | inr r => JSONResponse 200 (response_json r)
  | inl exc => http_exception_response exc
  end.

(** [POST /chat] with body [body]. *)
Definition post_chat (P : Providers) (body : json)
  : list event -> list event * http_response :=
  fun log =>
    match validate_QueryRequest body with
    | None => (log, UnprocessableEntity)
    | Some request =>
        let (log', outcome) := chat_endpoint P request log in
        (log', respond outcome)
    end.

(** The events a request appends when the search raises, when the context
    cannot be built, and when the model has been called. *)
Definition search_event (request : QueryRequest) : event :=
  SearchCall (query request) (max_results search_tool).

Definition chain_input (request : QueryRequest) (context_text : string) : ChainInput :=
  {| ci_context := context_text;
     ci_question := query request;
     ci_chat_history := format_history (history request) |}.

Definition model_event (request : QueryRequest) (context_text : string) : event :=
  ModelCall (model llm) (temperature llm) (prompt (chain_input request context_text)).

Definition error_event (e : exn) : event := Printed ("Error: " +:+ str e).

Definition internal_error (e : exn) : HTTPException :=
  {| status_code := 500; detail := str e |}.


(** ** 1. Configuration *)

(** [os.getenv(name)] on the environment left by [load_dotenv()]. *)
Definition os_getenv (environ : pydict) (name : string) : option string :=
  environ !! name.

(** [not v], for [v] a string or [None]. *)
Definition py_not (v : option string) : bool :=
  match v with
  | None | Some EmptyString => true
  | Some (String _ _) => false
  end.

(** The line printed at import time; the warning sign is held as the bytes
    of its UTF-8 encoding. *)
Definition keys_warning : string :=
  "⚠️ WARNING: API Keys are missing. Check your .env file.".

(** The check of the two keys when the module is loaded. *)
Definition verify_keys {E} (environ : pydict) : io E unit :=
  if py_not (os_getenv environ "TAVILY_API_KEY")
     || py_not (os_getenv environ "GROQ_API_KEY")
  then print keys_warning
  else IO.ret tt.

(** ** Reading the log *)

Definition is_model_call (ev : event) : bool :=
  match ev with ModelCall _ _ _ => true | _ => false end.

Definition model_calls (events : list event) : nat :=
  length (List.filter is_model_call events).

(** ** A stub world

    Two providers and a request on which the properties below are run. *)

Module Stub.

Definition results : list pydict :=
  [ {[ "content" := "Rocq is an interactive theorem prover developed at Inria.";
       "url" := "https://rocq-prover.org/about" ]};
    {[ "content" := "A short snippet";
       "url" := "https://example.org/short";
       "title" := "Short" ]} ].

(** The search stub returns the first [cap] of its results, the model stub
    answers with the text of the last turn. *)
Definition providers : Providers :=
  {| tavily_search := fun _ cap => inr (take cap results);
     groq_chat := fun _ _ messages =>
       inr ("You asked: " +:+ message_content (List.last messages (AIMessage ""))) |}.

Definition search_down : Providers :=
  {| tavily_search := fun _ _ => inl (ProviderError "quota exceeded");
     groq_chat := groq_chat providers |}.

Definition model_down : Providers :=
  {| tavily_search := tavily_search providers;
     groq_chat := fun _ _ _ => inl (ProviderError "401 Unauthorized") |}.

(** A search stub whose second result has no ["url"] key, and one whose
    second result has no ["content"] key. *)
Definition no_url : Providers :=
  {| tavily_search := fun _ _ =>
       inr [ {[ "content" := "first"; "url" := "https://example.org/1" ]};
             {[ "content" := "second" ]} ];
     groq_chat := groq_chat providers |}.

Definition no_content : Providers :=
  {| tavily_search := fun _ _ =>
       inr [ {[ "content" := "first"; "url" := "https://example.org/1" ]};
             {[ "url" := "https://example.org/2" ]} ];
     groq_chat := groq_chat providers |}.

(** A world that differs from [providers] only where the relay never
    looks: at another cap and at another model. *)
Definition elsewhere : Providers :=
  {| tavily_search := fun q cap =>
       if Nat.eqb cap 3 then tavily_search providers q cap else inr [];
     groq_chat := fun model_id temp messages =>
       if String.eqb model_id "llama-3.3-70b-versatile"
       then groq_chat providers model_id temp messages
       else inl (ProviderError "unknown model") |}.

Definition request : QueryRequest :=
  {| query := "what is rocq";
     history := [ {| role := "user"; content := "hello" |};
                  {| role := "assistant"; content := "hi, ask me anything" |} ] |}.

Definition body : json :=
  JObj [ ("query", JStr "what is rocq");
         ("history", JArr [ JObj [("role", JStr "user"); ("content", JStr "hello")];
                            JObj [("role", JStr "assistant");
                                  ("content", JStr "hi, ask me anything")] ]) ].

End Stub.

(** [GET /]: the liveness message. *)
Definition home : json := JObj [("message", JStr "Perplex-Mini Backend is Running!")].

Definition get_root : list event -> list event * http_response :=
  fun log => (log, JSONResponse 200 home).

(** ** Sample bodies and environments *)

Module Sample.

(** A body whose second turn of history is a bare string. *)
Definition malformed_body : list (string * json) :=
  [ ("query", JStr "what is rocq");
    ("history", JArr [ JObj [("role", JStr "user"); ("content", JStr "hello")];
                       JStr "hi, ask me anything" ]) ].

Definition both_keys : pydict :=
  {[ "TAVILY_API_KEY" := "tvly-0000"; "GROQ_API_KEY" := "gsk-0000" ]}.

(** An environment where the second key is set, to the empty string. *)
Definition empty_key : pydict :=
  {[ "TAVILY_API_KEY" := "tvly-0000"; "GROQ_API_KEY" := "" ]}.



End Sample.

(** The lines a run has printed, in order. *)
Definition printed_lines (events : list event) : list string :=
  omap (fun ev => match ev with Printed line => Some line | _ => None end) events.

(** * Properties *)

(** ** Text *)

Section TextFacts.

Lemma append_cons (c : ascii) (s t : string) :
  String c s +:+ t = String c (s +:+ t).
Proof. reflexivity. Qed.

Lemma length_append (s t : string) :
  String.length (s +:+ t) = String.length s + String.length t.
Proof.
  induction s as [| c s IH]; [reflexivity |].
  rewrite append_cons. simpl. now rewrite IH.
Qed.

Lemma slice_to_length (n : nat) (s : string) :
  String.length (Text.slice_to n s) = Nat.min n (String.length s).
Proof.
  revert s; induction n as [| n IH]; intros [| c s]; simpl; try reflexivity.
  now rewrite IH.
Qed.


End TextFacts.

(** ** Comprehensions *)

Section Comprehensions.

Context {E A B : Type} (f : A -> E + B).

Lemma comprehension_ok (xs : list A) (ys : list B) :
  comprehension f xs = inr ys <-> Forall2 (fun x y => f x = inr y) xs ys.
Proof.
  revert ys; induction xs as [| x xs IH]; intros ys; simpl.
  - split.
    + intros [= <-]. constructor.
    + intros H. inversion H. reflexivity.
  - destruct (f x) as [e | y] eqn:Hx; simpl.
    + split; [discriminate |]. intros H. inversion H; congruence.
    + destruct (comprehension f xs) as [e | ys'] eqn:Hxs; simpl.
      * split; [discriminate |]. intros H. inversion H; subst.
        match goal with H' : Forall2 _ xs _ |- _ => apply IH in H' end.
        discriminate.
      * split.
        -- intros [= <-]. constructor; [assumption | now apply IH].
        -- intros H. inversion H; subst.
           match goal with H' : Forall2 _ xs _ |- _ => apply IH in H' end.
           congruence.
Qed.

End Comprehensions.

(** ** The history adapter *)

Lemma format_history_from_app (acc : list BaseMessage) (messages : list Message) :
  format_history_from acc messages = acc ++ map format_message messages.
Proof.
  revert acc; induction messages as [| msg rest IH]; intros acc; simpl.
  - now rewrite app_nil_r.
  - rewrite IH, <- app_assoc. reflexivity.
Qed.

Lemma format_history_map (messages : list Message) :
  format_history messages = map format_message messages.
Proof. unfold format_history. now rewrite format_history_from_app. Qed.

Lemma format_message_decide (msg : Message) :
  format_message msg =
  if decide (role msg = "user") then HumanMessage (content msg)
  else AIMessage (content msg).
Proof.
  unfold format_message.
  destruct (String.eqb_spec (role msg) "user"); case_decide; congruence.
Qed.

(** C2. The history adapter returns one provider turn per chat turn, in the
    same order: the turn at index [i] is a human turn carrying the content of
    the [i]-th input when that input's role is exactly ["user"], and an AI
    turn carrying its content for every other role.  It is a function of its
    input alone: it runs outside the [io] monad. *)
Theorem format_history_spec (messages : list Message) :
  length (format_history messages) = length messages /\
  forall i : nat,
    format_history messages !! i =
    (fun msg : Message =>
       if decide (role msg = "user") then HumanMessage (content msg)
       else AIMessage (content msg)) <$> messages !! i.
Proof.
  rewrite format_history_map. split.
  - apply length_map.
  - intros i. rewrite list_lookup_fmap.
    destruct (messages !! i) as [msg |]; simpl; [| reflexivity].
    now rewrite format_message_decide.
Qed.

Example format_history_roles :
  format_history [ {| role := "user"; content := "hi" |};
                   {| role := "assistant"; content := "hello" |};
                   {| role := "User"; content := "typo" |};
                   {| role := "system"; content := "s" |} ]
  = [HumanMessage "hi"; AIMessage "hello"; AIMessage "typo"; AIMessage "s"].
Proof. reflexivity. Qed.

(** ** Running the handler *)

Section Handler.

Variable P : Providers.
Variable request : QueryRequest.

(** Every path through [chat_endpoint], with the events it appends. *)
Lemma chat_endpoint_run (log : list event) :
  chat_endpoint P request log =
  match tavily_search P (query request) (max_results search_tool) with
  | inl e =>
      (log ++ [search_event request; error_event e], inl (internal_error e))
  | inr raw_results =>
      match context_of raw_results with
      | inl e =>
          (log ++ [search_event request; error_event e], inl (internal_error e))
      | inr context_text =>
          match groq_chat P (model llm) (temperature llm)
                  (prompt (chain_input request context_text)) with
          | inl e =>
              (log ++ [search_event request; model_event request context_text;
                       error_event e],
               inl (internal_error e))
          | inr response =>
              match sources_of raw_results with
              | inl e =>
                  (log ++ [search_event request; model_event request context_text;
                           error_event e],
                   inl (internal_error e))
              | inr srcs =>
                  (log ++ [search_event request; model_event request context_text],
                   inr {| answer := response; sources := srcs |})
              end
          end
      end
  end.
Proof.
  unfold chat_endpoint, chat_body, chat_after_search, chat_except,
    search_invoke, chain_invoke, print, IO.try_except, IO.bind, IO.emit,
    IO.lift, IO.raise, IO.ret.
  fold (search_event request).
  destruct (tavily_search P (query request) (max_results search_tool))
    as [e | raw_results]; [now rewrite <- app_assoc |].
  destruct (context_of raw_results) as [e | context_text];
    [now rewrite <- app_assoc |].
  fold (chain_input request context_text).
  fold (model_event request context_text).
  destruct (groq_chat P (model llm) (temperature llm)
              (prompt (chain_input request context_text))) as [e | response];
    [now rewrite <- !app_assoc |].
  destruct (sources_of raw_results) as [e | srcs]; now rewrite <- !app_assoc.
Qed.

(** The handler only ever appends to the log, and what it appends and
    returns does not depend on what the log held. *)
Lemma chat_endpoint_appends (log : list event) :
  chat_endpoint P request log =
  (log ++ fst (chat_endpoint P request []), snd (chat_endpoint P request [])).
Proof.
  rewrite !chat_endpoint_run.
  repeat match goal with
         | |- context [match ?x with inl _ => _ | inr _ => _ end] => destruct x
         end; reflexivity.
Qed.

End Handler.

(** ** Shaping the search results *)

Lemma getitem_ok (d : pydict) (key v : string) :
  getitem d key = inr v <-> d !! key = Some v.
Proof. unfold getitem. destruct (d !! key); split; congruence. Qed.

Lemma source_of_ok (res : pydict) (src : SourceSummary) :
  source_of res = inr src <->
  exists text, res !! "content" = Some text /\
               title src = title_of text /\
               res !! "url" = Some (url src).
Proof.
  unfold source_of, getitem.
  destruct (res !! "content") as [text |], (res !! "url") as [u |]; simpl; split;
    try discriminate; try (intros (? & ? & ? & ?); discriminate).
  - intros [= <-]. now exists text.
  - intros (text' & [= <-] & Ht & [= Hu]). destruct src; simpl in *; congruence.
Qed.

Lemma contents_ok (raw_results : list pydict) (texts : list string) :
  contents raw_results = inr texts <->
  Forall2 (fun res text => res !! "content" = Some text) raw_results texts.
Proof.
  unfold contents. rewrite comprehension_ok.
  split; intros H; eapply Forall2_impl; try exact H; intros res text;
    apply getitem_ok.
Qed.

Lemma context_of_ok (raw_results : list pydict) (context_text : string) :
  context_of raw_results = inr context_text <->
  exists texts, contents raw_results = inr texts /\
                context_text = Text.join (Text.LF +:+ Text.LF) texts.
Proof.
  unfold context_of. destruct (contents raw_results) as [e | texts]; simpl; split.
  - discriminate.
  - intros (? & ? & _). discriminate.
  - intros [= <-]. now exists texts.
  - intros (? & [= <-] & ->). reflexivity.
Qed.




Lemma sources_of_ok (raw_results : list pydict) (srcs : list SourceSummary) :
  sources_of raw_results = inr srcs <->
  Forall2 (fun res src =>
             exists text, res !! "content" = Some text /\
                          title src = title_of text /\
                          res !! "url" = Some (url src))
          raw_results srcs.
Proof.
  unfold sources_of. rewrite comprehension_ok.
  split; intros H; eapply Forall2_impl; try exact H; intros res src;
    apply source_of_ok.
Qed.

(** What a successful run tells about the four steps of the [try] block. *)
Lemma chat_endpoint_success (P : Providers) (request : QueryRequest)
    (log log' : list event) (resp : ChatResponse) (raw_results : list pydict) :
  tavily_search P (query request) (max_results search_tool) = inr raw_results ->
  chat_endpoint P request log = (log', inr resp) ->
  exists context_text,
    context_of raw_results = inr context_text /\
    groq_chat P (model llm) (temperature llm)
      (prompt (chain_input request context_text)) = inr (answer resp) /\
    sources_of raw_results = inr (sources resp) /\
    log' = log ++ [search_event request; model_event request context_text].
Proof.
  intros Hsearch. rewrite chat_endpoint_run, Hsearch.
  destruct (context_of raw_results) as [e | context_text] eqn:Hctx;
    [discriminate |].
  destruct (groq_chat _ _ _ _) as [e | response] eqn:Hllm; [discriminate |].
  destruct (sources_of raw_results) as [e | srcs] eqn:Hsrcs; [discriminate |].
  intros [= <- <-]. exists context_text. simpl. repeat split; assumption.
Qed.

Lemma slice_to_prefix (n : nat) (s : string) :
  exists rest, s = Text.slice_to n s +:+ rest.
Proof.
  revert s; induction n as [| n IH]; intros s.
  - exists s. now destruct s.
  - destruct s as [| c s]; [now exists EmptyString |].
    destruct (IH s) as [rest Hrest]. exists rest. simpl.
    rewrite append_cons. f_equal. exact Hrest.
Qed.

(** C1. When a request succeeds and the search provider returned
    [raw_results], the [sources] of the response has one entry per result, in
    the provider's order: the title of the [i]-th entry is the first 40
    characters of the [i]-th result's content (the prefix of the content of
    length 40, or the whole content when it is shorter) followed by the
    ellipsis marker, and its url is the [i]-th result's url.  Nothing is
    filtered out or merged. *)
Theorem sources_follow_results (P : Providers) (request : QueryRequest)
    (log log' : list event) (resp : ChatResponse) (raw_results : list pydict) :
  tavily_search P (query request) 3 = inr raw_results ->
  chat_endpoint P request log = (log', inr resp) ->
  length (sources resp) = length raw_results /\
  Forall2 (fun res src =>
             exists text first_40 rest,
               res !! "content" = Some text /\
               text = first_40 +:+ rest /\
               String.length first_40 = Nat.min 40 (String.length text) /\
               title src = first_40 +:+ "..." /\
               res !! "url" = Some (url src))
          raw_results (sources resp).
Proof.
  intros Hsearch Hrun.
  destruct (chat_endpoint_success _ _ _ _ _ _ Hsearch Hrun)
    as (_ & _ & _ & Hsrcs & _).
  apply sources_of_ok in Hsrcs. split.
  - symmetry. eapply Forall2_length, Hsrcs.
  - eapply Forall2_impl; [exact Hsrcs |].
    intros res src (text & Hc & Ht & Hu).
    destruct (slice_to_prefix 40 text) as [rest Hrest].
    exists text, (Text.slice_to 40 text), rest.
    repeat split; try assumption. apply slice_to_length.
Qed.

Lemma sources_follow_results_witness :
  length (sources {| answer := "You asked: what is rocq";
                     sources := [ {| title := "Rocq is an interactive theorem prover de...";
                                     url := "https://rocq-prover.org/about" |};
                                  {| title := "A short snippet...";
                                     url := "https://example.org/short" |} ] |})
  = length Stub.results.
Proof.
  apply (sources_follow_results Stub.providers Stub.request []
           [SearchCall "what is rocq" 3;
            model_event Stub.request
              (Text.join (Text.LF +:+ Text.LF)
                 ["Rocq is an interactive theorem prover developed at Inria.";
                  "A short snippet"])]).
  - vm_compute. reflexivity.
  - vm_compute. reflexivity.
Defined.

(** What the model is called with, and the run on an empty result list. *)
Lemma model_call_prompt (P : Providers) (request : QueryRequest)
    (log events : list event) (outcome : HTTPException + ChatResponse)
    (raw_results : list pydict) :
  tavily_search P (query request) 3 = inr raw_results ->
  chat_endpoint P request log = (log ++ events, outcome) ->
  (forall model_id temp messages,
      ModelCall model_id temp messages ∈ events ->
      exists texts,
        Forall2 (fun res text => res !! "content" = Some text) raw_results texts /\
        messages =
          SystemMessage (template (Text.join (Text.LF +:+ Text.LF) texts))
          :: format_history (history request) ++ [HumanMessage (query request)]) /\
  (raw_results = [] ->
     context_of raw_results = inr "" /\
     ModelCall (model llm) (temperature llm)
       (SystemMessage (template "")
        :: format_history (history request) ++ [HumanMessage (query request)])
       ∈ events /\
     forall text,
       groq_chat P (model llm) (temperature llm)
         (SystemMessage (template "")
          :: format_history (history request) ++ [HumanMessage (query request)])
       = inr text ->
       outcome = inr {| answer := text; sources := [] |}).
Proof.
  intros Hsearch. change 3 with (max_results search_tool) in Hsearch.
  rewrite chat_endpoint_run, Hsearch. intros Hrun. split.
  - intros model_id temp messages Hin.
    destruct (context_of raw_results) as [e | context_text] eqn:Hctx.
    { injection Hrun as Hev _. apply app_inv_head in Hev. subst events.
      set_unfold in Hin. destruct Hin as [Hin | [Hin | []]]; discriminate. }
    apply context_of_ok in Hctx as (texts & Htexts & ->).
    apply contents_ok in Htexts. exists texts. split; [assumption |].
    assert (ModelCall model_id temp messages ∈
              [search_event request;
               model_event request (Text.join (Text.LF +:+ Text.LF) texts)]
            \/ exists e, ModelCall model_id temp messages = error_event e)
      as [Hin' | [e He]].
    { repeat match goal with
             | H : context [match ?x with inl _ => _ | inr _ => _ end] |- _ =>
                 destruct x
             end;
        injection Hrun as Hev _; apply app_inv_head in Hev; subst events;
        set_unfold in Hin; set_unfold; intuition eauto. }
    + set_unfold in Hin'. destruct Hin' as [Hin' | [Hin' | []]]; [discriminate |].
      now injection Hin' as _ _ ->.
    + discriminate.
  - intros ->.
    change (SystemMessage (template "")
            :: format_history (history request) ++ [HumanMessage (query request)])
      with (prompt (chain_input request "")).
    change (context_of []) with (@inr exn string "") in *.
    cbv beta iota in Hrun. split; [reflexivity |]. split.
    + fold (model_event request "").
      repeat match goal with
             | H : context [match ?x with inl _ => _ | inr _ => _ end] |- _ =>
                 destruct x
             end;
        injection Hrun as Hev _; apply app_inv_head in Hev; subst events;
        set_unfold; intuition eauto.
    + intros text Htext. rewrite Htext in Hrun.
      change (sources_of []) with (@inr exn (list SourceSummary) []) in Hrun.
      cbv beta iota in Hrun. now injection Hrun as _ <-.
Qed.

Lemma join_concat (sep : string) (parts : list string) :
  Text.join sep parts = String.concat sep parts.
Proof.
  induction parts as [| p rest IH]; [reflexivity |].
  destruct rest as [| p' rest]; [reflexivity |].
  change (Text.join sep (p :: p' :: rest))
    with (p +:+ sep +:+ Text.join sep (p' :: rest)).
  rewrite IH. reflexivity.
Qed.

(** The system message, character by character (10 is the line feed, 34 the
    double quote). *)
Lemma template_text (context : string) :
  template context =
  String "010" "You are a helpful research assistant. "
  +:+ String "010" "Answer the user's question based on the following context. "
  +:+ String "010" "If the context doesn't contain the answer, say "
  +:+ String "034" "I couldn't find that information."
  +:+ String "034" (String "010" (String "010" "Context:"))
  +:+ String "010" context
  +:+ String "010" "".
Proof. reflexivity. Qed.

(** C3. Whenever the model is called, the context block in the system
    message of its prompt is the [content] of every result the provider
    returned, in the provider's order, joined with a blank line (two line
    feeds between consecutive contents, none before the first or after the
    last); the system message is the instruction text, the line
    ["Context:"], the context block and a final line feed.  With no result
    the context block is the empty string and the request goes on: the model
    is called, and what it answers is the response, with an empty source
    list. *)
Theorem context_block_spec (P : Providers) (request : QueryRequest)
    (log events : list event) (outcome : HTTPException + ChatResponse)
    (raw_results : list pydict) :
  tavily_search P (query request) 3 = inr raw_results ->
  chat_endpoint P request log = (log ++ events, outcome) ->
  (forall model_id temp messages,
      ModelCall model_id temp messages ∈ events ->
      exists texts,
        Forall2 (fun res text => res !! "content" = Some text) raw_results texts /\
        messages =
          SystemMessage
            (String "010" "You are a helpful research assistant. "
             +:+ String "010" "Answer the user's question based on the following context. "
             +:+ String "010" "If the context doesn't contain the answer, say "
             +:+ String "034" "I couldn't find that information."
             +:+ String "034" (String "010" (String "010" "Context:"))
             +:+ String "010" (String.concat (String "010" (String "010" "")) texts)
             +:+ String "010" "")
          :: format_history (history request) ++ [HumanMessage (query request)]) /\
  (raw_results = [] ->
     context_of raw_results = inr "" /\
     ModelCall (model llm) (temperature llm)
       (SystemMessage
          (String "010" "You are a helpful research assistant. "
           +:+ String "010" "Answer the user's question based on the following context. "
           +:+ String "010" "If the context doesn't contain the answer, say "
           +:+ String "034" "I couldn't find that information."
           +:+ String "034" (String "010" (String "010" "Context:"))
           +:+ String "010" ("")
           +:+ String "010" "")
        :: format_history (history request) ++ [HumanMessage (query request)])
       ∈ events /\
     forall text,
       groq_chat P (model llm) (temperature llm)
         (SystemMessage
            (String "010" "You are a helpful research assistant. "
             +:+ String "010" "Answer the user's question based on the following context. "
             +:+ String "010" "If the context doesn't contain the answer, say "
             +:+ String "034" "I couldn't find that information."
             +:+ String "034" (String "010" (String "010" "Context:"))
             +:+ String "010" ("")
             +:+ String "010" "")
          :: format_history (history request) ++ [HumanMessage (query request)])
       = inr text ->
       outcome = inr {| answer := text; sources := [] |}).
Proof.
  intros Hsearch Hrun.
  destruct (model_call_prompt _ _ _ _ _ _ Hsearch Hrun) as [Hcalls Hnone].
  split.
  - intros model_id temp messages Hin.
    destruct (Hcalls _ _ _ Hin) as (texts & Htexts & ->).
    exists texts. split; [assumption |].
    now rewrite template_text, join_concat.
  - intros Hempty. destruct (Hnone Hempty) as (Hctx & Hcall & Hanswer).
    rewrite template_text in Hcall, Hanswer. now repeat split.
Qed.

Lemma context_block_spec_witness :
  exists texts,
    Forall2 (fun res text => res !! "content" = Some text) Stub.results texts /\
    prompt (chain_input Stub.request
              (Text.join (Text.LF +:+ Text.LF)
                 ["Rocq is an interactive theorem prover developed at Inria.";
                  "A short snippet"])) =
      SystemMessage
        (String "010" "You are a helpful research assistant. "
         +:+ String "010" "Answer the user's question based on the following context. "
         +:+ String "010" "If the context doesn't contain the answer, say "
         +:+ String "034" "I couldn't find that information."
         +:+ String "034" (String "010" (String "010" "Context:"))
         +:+ String "010" (String.concat (String "010" (String "010" "")) texts)
         +:+ String "010" "")
      :: format_history (history Stub.request)
         ++ [HumanMessage (query Stub.request)].
Proof.
  apply (proj1 (context_block_spec Stub.providers Stub.request []
                  (fst (chat_endpoint Stub.providers Stub.request []))
                  (snd (chat_endpoint Stub.providers Stub.request []))
                  Stub.results
                  ltac:(vm_compute; reflexivity)
                  ltac:(vm_compute; reflexivity))
           (model llm) (temperature llm)).
  apply list_elem_of_further, list_elem_of_here.
Defined.

(** ** Failures of the providers *)

Lemma post_chat_valid (P : Providers) (body : json) (request : QueryRequest)
    (log : list event) :
  validate_QueryRequest body = Some request ->
  post_chat P body log =
  (fst (chat_endpoint P request log), respond (snd (chat_endpoint P request log))).
Proof.
  intros Hvalid. unfold post_chat. rewrite Hvalid.
  now destruct (chat_endpoint P request log).
Qed.

(** C4. When the search provider raises [e], [POST /chat] answers 500 with
    [detail] equal to [str(e)], and the request makes no call to the model
    provider: it appends the search call and the printed error to the log,
    and nothing else. *)
Theorem search_failure_is_500 (P : Providers) (body : json)
    (request : QueryRequest) (log : list event) (e : exn) :
  validate_QueryRequest body = Some request ->
  tavily_search P (query request) 3 = inl e ->
  exists events,
    post_chat P body log =
      (log ++ events, JSONResponse 500 (JObj [("detail", JStr (str e))])) /\
    events = [SearchCall (query request) 3; Printed ("Error: " +:+ str e)] /\
    forall model_id temp messages, ModelCall model_id temp messages ∉ events.
Proof.
  intros Hvalid Hsearch. change 3 with (max_results search_tool) in Hsearch.
  eexists. split; [| split; [reflexivity |]].
  - rewrite (post_chat_valid _ _ _ _ Hvalid), chat_endpoint_run, Hsearch.
    reflexivity.
  - intros model_id temp messages Hin. set_unfold in Hin.
    destruct Hin as [Hin | [Hin | []]]; discriminate.
Qed.

Lemma search_failure_is_500_witness :
  exists events,
    post_chat Stub.search_down Stub.body [Printed "startup"] =
      ([Printed "startup"] ++ events,
       JSONResponse 500 (JObj [("detail", JStr "quota exceeded")])) /\
    events = [SearchCall "what is rocq" 3; Printed "Error: quota exceeded"] /\
    forall model_id temp messages, ModelCall model_id temp messages ∉ events.
Proof.
  apply (search_failure_is_500 Stub.search_down Stub.body Stub.request
           [Printed "startup"] (ProviderError "quota exceeded")).
  - vm_compute. reflexivity.
  - vm_compute. reflexivity.
Defined.

(** C5. When the model provider raises [e], [POST /chat] answers 500 with
    [detail] equal to [str(e)], and the body of the response has no [answer]
    member. *)
Theorem model_failure_is_500 (P : Providers) (body : json)
    (request : QueryRequest) (log : list event) (raw_results : list pydict)
    (context_text : string) (e : exn) :
  validate_QueryRequest body = Some request ->
  tavily_search P (query request) 3 = inr raw_results ->
  context_of raw_results = inr context_text ->
  groq_chat P (model llm) (temperature llm)
    (prompt (chain_input request context_text)) = inl e ->
  exists events response_body,
    post_chat P body log = (log ++ events, JSONResponse 500 response_body) /\
    response_body = JObj [("detail", JStr (str e))] /\
    has_field "answer" response_body = false.
Proof.
  intros Hvalid Hsearch Hctx Hllm.
  change 3 with (max_results search_tool) in Hsearch.
  do 2 eexists. split; [| split; reflexivity].
  rewrite (post_chat_valid _ _ _ _ Hvalid), chat_endpoint_run, Hsearch, Hctx, Hllm.
  reflexivity.
Qed.

Lemma model_failure_is_500_witness :
  exists events response_body,
    post_chat Stub.model_down Stub.body [] =
      ([] ++ events, JSONResponse 500 response_body) /\
    response_body = JObj [("detail", JStr "401 Unauthorized")] /\
    has_field "answer" response_body = false.
Proof.
  apply (model_failure_is_500 Stub.model_down Stub.body Stub.request []
           Stub.results
           (Text.join (Text.LF +:+ Text.LF)
              ["Rocq is an interactive theorem prover developed at Inria.";
               "A short snippet"])
           (ProviderError "401 Unauthorized")).
  - vm_compute. reflexivity.
  - vm_compute. reflexivity.
  - vm_compute. reflexivity.
  - vm_compute. reflexivity.
Defined.

(** ** Determinism *)

(** C6. The response to a request is a function of the request and of what
    the two providers return at the settings the relay calls them with (a
    cap of 3, the fixed model and temperature 0): two worlds that agree there
    answer the same body with the same response, whatever the log held
    before, and make the same calls. *)
Theorem relay_deterministic (P1 P2 : Providers) (body : json)
    (log1 log2 : list event) :
  (forall q, tavily_search P1 q 3 = tavily_search P2 q 3) ->
  (forall messages,
      groq_chat P1 "llama-3.3-70b-versatile" 0 messages =
      groq_chat P2 "llama-3.3-70b-versatile" 0 messages) ->
  snd (post_chat P1 body log1) = snd (post_chat P2 body log2) /\
  exists events,
    fst (post_chat P1 body log1) = log1 ++ events /\
    fst (post_chat P2 body log2) = log2 ++ events.
Proof.
  intros Hsearch Hllm. unfold post_chat.
  destruct (validate_QueryRequest body) as [request |]; simpl.
  2: { split; [reflexivity |]. exists []. now rewrite !app_nil_r. }
  rewrite (chat_endpoint_appends P1 request log1),
    (chat_endpoint_appends P2 request log2).
  assert (chat_endpoint P1 request [] = chat_endpoint P2 request []) as ->.
  { rewrite !chat_endpoint_run.
    change (max_results search_tool) with 3.
    change (model llm) with "llama-3.3-70b-versatile".
    change (temperature llm) with 0%Z.
    rewrite Hsearch.
    destruct (tavily_search P2 (query request) 3) as [e | raw_results];
      [reflexivity |].
    destruct (context_of raw_results) as [e | context_text]; [reflexivity |].
    now rewrite Hllm. }
  split; [reflexivity |]. now eexists.
Qed.

Lemma relay_deterministic_witness :
  snd (post_chat Stub.providers Stub.body []) =
  snd (post_chat Stub.elsewhere Stub.body [Printed "earlier request"]) /\
  exists events,
    fst (post_chat Stub.providers Stub.body []) = [] ++ events /\
    fst (post_chat Stub.elsewhere Stub.body [Printed "earlier request"]) =
      [Printed "earlier request"] ++ events.
Proof.
  apply (relay_deterministic Stub.providers Stub.elsewhere Stub.body
           [] [Printed "earlier request"]).
  - intros q. reflexivity.
  - intros messages. reflexivity.
Defined.

(** ** The result cap *)




(** ** The catch-all handler *)

Lemma contents_missing (raw_results : list pydict) :
  Exists (fun res => res !! "content" = None) raw_results ->
  contents raw_results = inl (KeyError "content").
Proof.
  unfold contents.
  induction raw_results as [| res rest IH]; intros Hex; [inversion Hex |].
  simpl. unfold getitem at 1.
  destruct (res !! "content") as [text |] eqn:Hres; simpl; [| reflexivity].
  inversion Hex as [? ? Hhere | ? ? Hlater]; subst; [congruence |].
  now rewrite (IH Hlater).
Qed.

Lemma sources_missing_url (raw_results : list pydict) (texts : list string) :
  contents raw_results = inr texts ->
  Exists (fun res => res !! "url" = None) raw_results ->
  sources_of raw_results = inl (KeyError "url").
Proof.
  intros Htexts. apply contents_ok in Htexts. unfold sources_of.
  induction Htexts as [| res text rest texts Hres _ IH]; intros Hex;
    [inversion Hex |].
  simpl. unfold source_of at 1, getitem. rewrite Hres. simpl.
  destruct (res !! "url") as [u |] eqn:Hu; simpl; [| reflexivity].
  inversion Hex as [? ? Hhere | ? ? Hlater]; subst; [congruence |].
  now rewrite (IH Hlater).
Qed.

(** C10. Whatever exception [e] the body of the handler raises, a failed
    provider call as much as a [KeyError] while shaping the results, the one
    [except] clause catches it: the error is printed and the request answers
    500 with [detail] equal to [str(e)].  A result without a ["content"] key
    fails the request before the model is called; a result without a
    ["url"] key fails it after the model has been called and has answered. *)
Theorem handler_catches_everything (P : Providers) (request : QueryRequest)
    (log : list event) :
  (forall log' e,
      chat_body P request log = (log', inl e) ->
      chat_endpoint P request log =
        (log' ++ [Printed ("Error: " +:+ str e)],
         inl {| status_code := 500; detail := str e |}) /\
      respond (snd (chat_endpoint P request log)) =
        JSONResponse 500 (JObj [("detail", JStr (str e))])) /\
  (forall raw_results,
      tavily_search P (query request) 3 = inr raw_results ->
      Exists (fun res => res !! "content" = None) raw_results ->
      chat_endpoint P request log =
        (log ++ [SearchCall (query request) 3; Printed "Error: 'content'"],
         inl {| status_code := 500; detail := "'content'" |})) /\
  (forall raw_results context_text response,
      tavily_search P (query request) 3 = inr raw_results ->
      context_of raw_results = inr context_text ->
      groq_chat P (model llm) (temperature llm)
        (prompt (chain_input request context_text)) = inr response ->
      Exists (fun res => res !! "url" = None) raw_results ->
      chat_endpoint P request log =
        (log ++ [SearchCall (query request) 3;
                 ModelCall (model llm) (temperature llm)
                   (prompt (chain_input request context_text));
                 Printed "Error: 'url'"],
         inl {| status_code := 500; detail := "'url'" |})).
Proof.
  split; [| split].
  - intros log' e Hbody.
    assert (chat_endpoint P request log =
              (log' ++ [Printed ("Error: " +:+ str e)],
               inl {| status_code := 500; detail := str e |})) as Hrun.
    { unfold chat_endpoint, IO.try_except. rewrite Hbody. reflexivity. }
    split; [exact Hrun |]. rewrite Hrun. reflexivity.
  - intros raw_results Hsearch Hex.
    change 3 with (max_results search_tool) in Hsearch.
    rewrite chat_endpoint_run, Hsearch.
    unfold context_of. rewrite (contents_missing _ Hex). reflexivity.
  - intros raw_results context_text response Hsearch Hctx Hllm Hex.
    change 3 with (max_results search_tool) in Hsearch.
    rewrite chat_endpoint_run, Hsearch, Hctx, Hllm.
    apply context_of_ok in Hctx as (texts & Htexts & _).
    rewrite (sources_missing_url _ _ Htexts Hex). reflexivity.
Qed.

Lemma handler_catches_everything_witness :
  chat_endpoint Stub.no_url Stub.request [] =
    ([SearchCall "what is rocq" 3;
      model_event Stub.request (Text.join (Text.LF +:+ Text.LF) ["first"; "second"]);
      Printed "Error: 'url'"],
     inl {| status_code := 500; detail := "'url'" |}) /\
  chat_endpoint Stub.no_content Stub.request [] =
    ([SearchCall "what is rocq" 3; Printed "Error: 'content'"],
     inl {| status_code := 500; detail := "'content'" |}).
Proof.
  split.
  - apply (proj2 (proj2 (handler_catches_everything Stub.no_url Stub.request []))
             [ {[ "content" := "first"; "url" := "https://example.org/1" ]};
               {[ "content" := "second" ]} ]
             (Text.join (Text.LF +:+ Text.LF) ["first"; "second"])
             "You asked: what is rocq").
    + vm_compute. reflexivity.
    + vm_compute. reflexivity.
    + vm_compute. reflexivity.
    + apply Exists_cons_tl, Exists_cons_hd. vm_compute. reflexivity.
  - apply (proj1 (proj2 (handler_catches_everything Stub.no_content Stub.request []))
             [ {[ "content" := "first"; "url" := "https://example.org/1" ]};
               {[ "url" := "https://example.org/2" ]} ]).
    + vm_compute. reflexivity.
    + apply Exists_cons_tl, Exists_cons_hd. vm_compute. reflexivity.
Defined.

(** ** Validation of the request *)

(** An accepted request may have an empty [query]: the body [{"query": ""}]
    is accepted, with the empty query and the default history. *)
Lemma empty_query_is_accepted :
  validate_QueryRequest (JObj [("query", JStr "")])
    = Some {| query := ""; history := [] |} /\
  ~ (forall body request,
        validate_QueryRequest body = Some request -> query request <> "").
Proof.
  split; [reflexivity |].
  intros Hclaim.
  apply (Hclaim (JObj [("query", JStr "")]) {| query := ""; history := [] |});
    reflexivity.
Qed.

(** C7, amended. The [query] of a request is free text, the empty text
    included: a body whose [query] member is a string is accepted or
    rejected on its [history] alone, whatever the string, and an accepted
    request carries that very string. *)
Theorem query_is_any_text (fields : list (string * json)) (q : string) :
  obj_get "query" fields = Some (JStr q) ->
  validate_QueryRequest (JObj fields) =
    (fun h => {| query := q; history := h |})
      <$> match obj_get "history" fields with
          | None => Some []
          | Some v => validate_history v
          end /\
  forall request,
    validate_QueryRequest (JObj fields) = Some request -> query request = q.
Proof.
  intros Hq.
  assert (validate_QueryRequest (JObj fields) =
            (fun h => {| query := q; history := h |})
              <$> match obj_get "history" fields with
                  | None => Some []
                  | Some v => validate_history v
                  end) as Hvalid.
  { unfold validate_QueryRequest. rewrite Hq. simpl.
    destruct (obj_get "history" fields) as [v |]; [| reflexivity].
    now destruct (validate_history v). }
  split; [exact Hvalid |].
  intros request. rewrite Hvalid.
  destruct (match obj_get "history" fields with
            | None => Some []
            | Some v => validate_history v
            end) as [h |]; simpl; [| discriminate].
  now intros [= <-].
Qed.

Lemma query_is_any_text_witness :
  validate_QueryRequest (JObj [("query", JStr "")])
    = Some {| query := ""; history := [] |}.
Proof.
  apply (query_is_any_text [("query", JStr "")] "").
  vm_compute. reflexivity.
Defined.

(** * Further properties *)

(** ** Text *)

Lemma append_nil_r (s : string) : s +:+ "" = s.
Proof.
  induction s as [| c s IH]; [reflexivity |]. rewrite append_cons. now f_equal.
Qed.

Lemma append_cancel_r (s1 s2 t : string) : s1 +:+ t = s2 +:+ t -> s1 = s2.
Proof.
  revert s2; induction s1 as [| c1 s1 IH]; intros [| c2 s2] Heq.
  - reflexivity.
  - apply (f_equal String.length) in Heq.
    rewrite !length_append in Heq. simpl in Heq. lia.
  - apply (f_equal String.length) in Heq.
    rewrite !length_append in Heq. simpl in Heq. lia.
  - rewrite !append_cons in Heq. injection Heq as -> Heq. f_equal. now apply IH.
Qed.

Lemma template_injective (c1 c2 : string) : template c1 = template c2 -> c1 = c2.
Proof.
  unfold template. intros Heq.
  repeat match type of Heq with
         | ?p +:+ _ = ?p +:+ _ => apply (inj (String.app p)) in Heq
         end.
  now apply append_cancel_r in Heq.
Qed.

(** X1. Adapting a history that is the concatenation of two histories gives
    the concatenation of the two adapted histories: each turn is adapted on
    its own, whatever comes before or after it. *)
Theorem format_history_app (earlier later : list Message) :
  format_history (earlier ++ later) = format_history earlier ++ format_history later.
Proof. rewrite !format_history_map. apply map_app. Qed.

(** X2. The adapter keeps every content as it is, in order, and never
    produces a system message, whatever the roles: a client cannot place a
    system turn in the prompt through the history. *)
Theorem format_history_keeps_contents (messages : list Message) :
  map message_content (format_history messages) = map content messages /\
  Forall (fun m => forall text, m <> SystemMessage text) (format_history messages).
Proof.
  rewrite format_history_map. split.
  - rewrite map_map. apply map_ext. intros msg. unfold format_message.
    now destruct (String.eqb (role msg) "user").
  - apply Forall_fmap, Forall_forall. intros msg _ text. simpl.
    unfold format_message. now destruct (String.eqb (role msg) "user").
Qed.

(** X3. The prompt of a request with [N] turns of history has [N + 2]
    messages: the system message with the context block first, the adapted
    turns at indices 1 to [N], the human turn with the raw query last; the
    system message is the only one of its kind. *)
Theorem prompt_shape (request : QueryRequest) (context_text : string) :
  length (prompt (chain_input request context_text)) = length (history request) + 2 /\
  prompt (chain_input request context_text) !! 0
    = Some (SystemMessage (template context_text)) /\
  (forall i : nat,
      i < length (history request) ->
      prompt (chain_input request context_text) !! (S i)
        = format_history (history request) !! i) /\
  prompt (chain_input request context_text) !! (S (length (history request)))
    = Some (HumanMessage (query request)) /\
  (forall (i : nat) text,
      prompt (chain_input request context_text) !! i = Some (SystemMessage text) ->
      i = 0).
Proof.
  unfold prompt, chain_input. simpl.
  assert (length (format_history (history request)) = length (history request))
    as Hlen by (rewrite format_history_map; apply length_map).
  repeat split.
  - rewrite length_app, Hlen. simpl. lia.
  - intros i Hi. apply lookup_app_l. lia.
  - rewrite lookup_app_r by lia. now rewrite Hlen, Nat.sub_diag.
  - intros [| i] text Hi; [reflexivity | exfalso]. simpl in Hi.
    apply lookup_app_Some in Hi as [Hi | [_ Hi]].
    + destruct (format_history_keeps_contents (history request)) as [_ Hno].
      rewrite Forall_lookup in Hno. exact (Hno _ _ Hi text eq_refl).
    + apply list_lookup_singleton_Some in Hi as [_ Hi]. discriminate.
Qed.

(** X4. The prompt keeps its three inputs apart: two inputs of the chain
    give the same messages only when they have the same context block, the
    same adapted history and the same question. *)
Theorem prompt_injective (inputs1 inputs2 : ChainInput) :
  prompt inputs1 = prompt inputs2 <-> inputs1 = inputs2.
Proof.
  split; [| now intros ->].
  destruct inputs1 as [c1 q1 h1], inputs2 as [c2 q2 h2]. unfold prompt. simpl.
  remember (template c1) as t1 eqn:Ht1. remember (template c2) as t2 eqn:Ht2.
  intros Heq. injection Heq as Hc Hrest. subst t1 t2.
  apply template_injective in Hc.
  apply app_inj_tail in Hrest as [-> Hq].
  assert (q1 = q2) by congruence. now subst.
Qed.

(** ** The outcomes of the handler *)

Lemma contents_raises (raw_results : list pydict) (e : exn) :
  contents raw_results = inl e ->
  e = KeyError "content" /\
  Exists (fun res => res !! "content" = None) raw_results.
Proof.
  unfold contents.
  induction raw_results as [| res rest IH]; simpl; [discriminate |].
  unfold getitem at 1.
  destruct (res !! "content") as [text |] eqn:Hres; simpl.
  - destruct (comprehension _ rest) as [e' | texts]; simpl; [| discriminate].
    intros [= ->]. destruct (IH eq_refl) as [-> Hex].
    split; [reflexivity | now apply Exists_cons_tl].
  - intros [= <-]. split; [reflexivity | now apply Exists_cons_hd].
Qed.

Lemma sources_raises (raw_results : list pydict) (texts : list string) (e : exn) :
  contents raw_results = inr texts ->
  sources_of raw_results = inl e ->
  e = KeyError "url" /\ Exists (fun res => res !! "url" = None) raw_results.
Proof.
  intros Htexts. apply contents_ok in Htexts. unfold sources_of.
  induction Htexts as [| res text rest texts Hres _ IH]; simpl; [discriminate |].
  unfold source_of at 1, getitem. rewrite Hres. simpl.
  destruct (res !! "url") as [u |] eqn:Hu; simpl.
  - destruct (comprehension source_of rest) as [e' | srcs]; simpl; [| discriminate].
    intros [= ->]. destruct (IH eq_refl) as [-> Hex].
    split; [reflexivity | now apply Exists_cons_tl].
  - intros [= <-]. split; [reflexivity | now apply Exists_cons_hd].
Qed.

Lemma contents_all_present (raw_results : list pydict) (texts : list string) :
  Forall2 (fun res text => res !! "content" = Some text) raw_results texts ->
  Forall (fun res => is_Some (res !! "content")) raw_results.
Proof.
  induction 1 as [| res text rest texts Hres _ IH]; constructor;
    [now exists text | assumption].
Qed.

Lemma sources_of_complete (raw_results : list pydict) :
  Forall (fun res => is_Some (res !! "content") /\ is_Some (res !! "url"))
         raw_results ->
  exists texts srcs,
    contents raw_results = inr texts /\ sources_of raw_results = inr srcs.
Proof.
  unfold contents, sources_of.
  induction 1 as [| res rest [[text Hc] [u Hu]] _ (texts & srcs & Htexts & Hsrcs)].
  - now exists [], [].
  - exists (text :: texts), ({| title := title_of text; url := u |} :: srcs).
    simpl. rewrite Htexts, Hsrcs. unfold source_of, getitem.
    rewrite Hc, Hu. now simpl.
Qed.

(** X5. A request succeeds as soon as the search returns, every result has
    both a ["content"] and a ["url"] key, and the model answers the prompt
    built on the joined contents: the answer is the model's text as it is,
    there is one source per result, and the request logs its two provider
    calls and nothing else. *)
Theorem complete_results_succeed (P : Providers) (request : QueryRequest)
    (log : list event) (raw_results : list pydict) (texts : list string)
    (response : string) :
  tavily_search P (query request) 3 = inr raw_results ->
  Forall2 (fun res text => res !! "content" = Some text) raw_results texts ->
  Forall (fun res => is_Some (res !! "url")) raw_results ->
  groq_chat P (model llm) (temperature llm)
    (prompt (chain_input request (Text.join (Text.LF +:+ Text.LF) texts)))
    = inr response ->
  exists srcs,
    length srcs = length raw_results /\
    chat_endpoint P request log =
      (log ++ [SearchCall (query request) 3;
               ModelCall (model llm) (temperature llm)
                 (prompt (chain_input request (Text.join (Text.LF +:+ Text.LF) texts)))],
       inr {| answer := response; sources := srcs |}).
Proof.
  intros Hsearch Htexts Hurls Hllm.
  change 3 with (max_results search_tool) in Hsearch.
  destruct (sources_of_complete raw_results) as (texts' & srcs & Htexts' & Hsrcs).
  { apply Forall_and. split; [| assumption].
    now apply contents_all_present with texts. }
  apply contents_ok in Htexts.
  assert (texts' = texts) as -> by congruence.
  exists srcs. split.
  - symmetry. eapply Forall2_length. apply sources_of_ok, Hsrcs.
  - rewrite chat_endpoint_run, Hsearch.
    assert (context_of raw_results = inr (Text.join (Text.LF +:+ Text.LF) texts))
      as -> by (unfold context_of; now rewrite Htexts).
    rewrite Hllm, Hsrcs. reflexivity.
Qed.

Lemma complete_results_succeed_witness :
  exists srcs,
    length srcs = length Stub.results /\
    chat_endpoint Stub.providers Stub.request [] =
      ([] ++ [SearchCall (query Stub.request) 3;
              ModelCall (model llm) (temperature llm)
                (prompt (chain_input Stub.request
                           (Text.join (Text.LF +:+ Text.LF)
                              ["Rocq is an interactive theorem prover developed at Inria.";
                               "A short snippet"])))],
       inr {| answer := "You asked: what is rocq"; sources := srcs |}).
Proof.
  apply (complete_results_succeed Stub.providers Stub.request [] Stub.results
           ["Rocq is an interactive theorem prover developed at Inria.";
            "A short snippet"]
           "You asked: what is rocq").
  - vm_compute. reflexivity.
  - repeat constructor.
  - repeat constructor; eexists; vm_compute; reflexivity.
  - vm_compute. reflexivity.
Defined.

(** X6. When what the search tool returns is a list of results with text
    values, a request fails for one of four reasons only, and always with
    status 500: the search provider raised and [detail] is its message; a
    result has no ["content"] key and [detail] is ['content']; the model
    provider raised and [detail] is its message; or a result has no ["url"]
    key and [detail] is ['url']. *)
Theorem failure_causes (P : Providers) (request : QueryRequest)
    (log log' : list event) (exc : HTTPException) :
  chat_endpoint P request log = (log', inl exc) ->
  status_code exc = 500 /\
  ((exists e,
       tavily_search P (query request) 3 = inl e /\ detail exc = str e) \/
   (exists raw_results,
       tavily_search P (query request) 3 = inr raw_results /\
       Exists (fun res => res !! "content" = None) raw_results /\
       detail exc = "'content'") \/
   (exists raw_results context_text e,
       tavily_search P (query request) 3 = inr raw_results /\
       context_of raw_results = inr context_text /\
       groq_chat P (model llm) (temperature llm)
         (prompt (chain_input request context_text)) = inl e /\
       detail exc = str e) \/
   (exists raw_results,
       tavily_search P (query request) 3 = inr raw_results /\
       Forall (fun res => is_Some (res !! "content")) raw_results /\
       Exists (fun res => res !! "url" = None) raw_results /\
       detail exc = "'url'")).
Proof.
  rewrite chat_endpoint_run. change (max_results search_tool) with 3.
  destruct (tavily_search P (query request) 3) as [e | raw_results].
  { intros [= _ <-]. split; [reflexivity |]. left. now exists e. }
  destruct (context_of raw_results) as [e | context_text] eqn:Hctx.
  { intros [= _ <-]. split; [reflexivity |]. right; left.
    exists raw_results. unfold context_of in Hctx.
    destruct (contents raw_results) as [e' | texts] eqn:Htexts; [| discriminate].
    injection Hctx as ->. apply contents_raises in Htexts as [-> Hex].
    repeat split; assumption. }
  destruct (groq_chat _ _ _ _) as [e | response] eqn:Hllm.
  { intros [= _ <-]. split; [reflexivity |]. right; right; left.
    exists raw_results, context_text, e. repeat split; assumption. }
  destruct (sources_of raw_results) as [e | srcs] eqn:Hsrcs; [| discriminate].
  intros [= _ <-]. split; [reflexivity |]. right; right; right.
  exists raw_results. apply context_of_ok in Hctx as (texts & Htexts & _).
  destruct (sources_raises _ _ _ Htexts Hsrcs) as [-> Hex].
  repeat split; try assumption.
  apply contents_ok in Htexts. now apply contents_all_present with texts.
Qed.

Lemma failure_causes_witness :
  status_code {| status_code := 500; detail := "'url'" |} = 500.
Proof.
  apply (failure_causes Stub.no_url Stub.request []
           [SearchCall "what is rocq" 3;
            model_event Stub.request (Text.join (Text.LF +:+ Text.LF) ["first"; "second"]);
            Printed "Error: 'url'"]).
  vm_compute. reflexivity.
Defined.

(** X7. A failed request prints exactly one line, ["Error: "] followed by
    the [detail] it answers with, and printing it is the last thing it does;
    a successful request prints nothing. *)
Theorem errors_are_logged (P : Providers) (request : QueryRequest)
    (log events : list event) (outcome : HTTPException + ChatResponse) :
  chat_endpoint P request log = (log ++ events, outcome) ->
  match outcome with
  | inl exc =>
      printed_lines events = ["Error: " +:+ detail exc] /\
      last events = Some (Printed ("Error: " +:+ detail exc))
  | inr _ => printed_lines events = []
  end.
Proof.
  rewrite chat_endpoint_run.
  repeat match goal with
         | |- context [match ?x with inl _ => _ | inr _ => _ end] => destruct x
         end;
    intros [= Hev <-]; apply app_inv_head in Hev; subst events;
    try split; reflexivity.
Qed.

Lemma errors_are_logged_witness :
  printed_lines [SearchCall "what is rocq" 3; Printed "Error: quota exceeded"]
    = ["Error: " +:+ "quota exceeded"] /\
  last [SearchCall "what is rocq" 3; Printed "Error: quota exceeded"]
    = Some (Printed ("Error: " +:+ "quota exceeded")).
Proof.
  apply (errors_are_logged Stub.search_down Stub.request []
           [SearchCall "what is rocq" 3; Printed "Error: quota exceeded"]
           (inl {| status_code := 500; detail := "quota exceeded" |})).
  vm_compute. reflexivity.
Defined.

(** X8. A request calls the model provider at most once, and never before
    the search has returned and the context block has been built; a
    successful request has called it exactly once.  There is no retry. *)
Theorem model_called_at_most_once (P : Providers) (request : QueryRequest)
    (log events : list event) (outcome : HTTPException + ChatResponse) :
  chat_endpoint P request log = (log ++ events, outcome) ->
  model_calls events <= 1 /\
  (model_calls events = 1 ->
   exists raw_results context_text,
     tavily_search P (query request) 3 = inr raw_results /\
     context_of raw_results = inr context_text /\
     events !! 1 = Some (ModelCall (model llm) (temperature llm)
                           (prompt (chain_input request context_text)))) /\
  (forall resp, outcome = inr resp -> model_calls events = 1).
Proof.
  rewrite chat_endpoint_run. change (max_results search_tool) with 3.
  destruct (tavily_search P (query request) 3) as [e | raw_results].
  { intros [= Hev <-]; apply app_inv_head in Hev; subst events.
    repeat split; [cbv; lia | discriminate | discriminate]. }
  destruct (context_of raw_results) as [e | context_text] eqn:Hctx.
  { intros [= Hev <-]; apply app_inv_head in Hev; subst events.
    repeat split; [cbv; lia | discriminate | discriminate]. }
  assert (forall tail_events : list event,
             Forall (fun ev => is_model_call ev = false) tail_events ->
             model_calls (search_event request
                          :: model_event request context_text :: tail_events) = 1)
    as Hcount.
  { intros tail_events Htail. unfold model_calls. simpl. f_equal.
    induction Htail as [| ev evs Hev _ IH]; [reflexivity |].
    simpl. now rewrite Hev. }
  assert (forall tail_events (out : HTTPException + ChatResponse),
             Forall (fun ev => is_model_call ev = false) tail_events ->
             (log ++ search_event request
                  :: model_event request context_text :: tail_events, out)
             = (log ++ events, outcome) ->
             model_calls events <= 1 /\
             (model_calls events = 1 ->
              exists raw_results0 context_text0,
                @inr exn _ raw_results = inr raw_results0 /\
                context_of raw_results0 = inr context_text0 /\
                events !! 1 = Some (ModelCall (model llm) (temperature llm)
                                      (prompt (chain_input request context_text0)))) /\
             (forall resp, outcome = inr resp -> model_calls events = 1))
    as Hshape.
  { intros tail_events out Htail [= Hev <-].
    apply app_inv_head in Hev. subst events. rewrite (Hcount _ Htail).
    split; [lia | split]; [| reflexivity].
    intros _. exists raw_results, context_text. repeat split. exact Hctx. }
  destruct (groq_chat _ _ _ _) as [e | response];
    [| destruct (sources_of raw_results) as [e | srcs]];
    intros Hrun; (eapply Hshape; [| exact Hrun]);
    repeat first [reflexivity | constructor].
Qed.

Lemma model_called_at_most_once_witness :
  model_calls (fst (chat_endpoint Stub.no_url Stub.request [])) <= 1.
Proof.
  apply (model_called_at_most_once Stub.no_url Stub.request []
           (fst (chat_endpoint Stub.no_url Stub.request []))
           (snd (chat_endpoint Stub.no_url Stub.request []))).
  vm_compute. reflexivity.
Defined.

(** ** The context block and the titles *)

Lemma join_length (sep : string) (parts : list string) :
  String.length (Text.join sep parts) =
  sum_list_with String.length parts + String.length sep * (length parts - 1).
Proof.
  induction parts as [| p rest IH]; [simpl; lia |].
  destruct rest as [| p' rest].
  - simpl. lia.
  - change (Text.join sep (p :: p' :: rest))
      with (p +:+ sep +:+ Text.join sep (p' :: rest)).
    rewrite !length_append, IH. simpl. lia.
Qed.

(** X9. The context block is as long as the contents of the results taken
    together, plus two characters for each of the separators between them:
    nothing is cut, trimmed or added at either end. *)
Theorem context_block_length (raw_results : list pydict) (context_text : string) :
  context_of raw_results = inr context_text ->
  exists texts,
    Forall2 (fun res text => res !! "content" = Some text) raw_results texts /\
    String.length context_text =
      sum_list_with String.length texts + 2 * (length raw_results - 1).
Proof.
  intros Hctx. apply context_of_ok in Hctx as (texts & Htexts & ->).
  apply contents_ok in Htexts. exists texts. split; [assumption |].
  rewrite join_length, (Forall2_length _ _ _ Htexts). reflexivity.
Qed.

Lemma context_block_length_witness :
  exists texts,
    Forall2 (fun res text => res !! "content" = Some text) Stub.results texts /\
    String.length
      (Text.join (Text.LF +:+ Text.LF)
         ["Rocq is an interactive theorem prover developed at Inria.";
          "A short snippet"]) =
      sum_list_with String.length texts + 2 * (length Stub.results - 1).
Proof.
  apply (context_block_length Stub.results).
  vm_compute. reflexivity.
Defined.

Lemma slice_to_agree (n : nat) (s1 s2 : string) :
  Text.slice_to n s1 = Text.slice_to n s2 <->
  forall i, i < n -> String.get i s1 = String.get i s2.
Proof.
  revert s1 s2; induction n as [| n IH]; intros s1 s2.
  - split; [intros _ i Hi; lia | now destruct s1, s2].
  - destruct s1 as [| c1 s1], s2 as [| c2 s2]; simpl.
    + split; [reflexivity | reflexivity].
    + split; [discriminate |]. intros H. specialize (H 0 ltac:(lia)). discriminate.
    + split; [discriminate |]. intros H. specialize (H 0 ltac:(lia)). discriminate.
    + split.
      * intros [= -> Hrest] [| i] Hi; [reflexivity |]. simpl.
        apply (proj1 (IH s1 s2) Hrest). lia.
      * intros H. pose proof (H 0 ltac:(lia)) as H0. simpl in H0.
        injection H0 as ->. f_equal. apply IH. intros i Hi.
        apply (H (S i)). lia.
Qed.

(** X10. Two contents get the same title exactly when they have the same
    character, or both none, at each of the positions 0 to 39: the title
    tells nothing of what comes after them, not even whether anything
    does. *)
Theorem title_depends_on_prefix (text1 text2 : string) :
  title_of text1 = title_of text2 <->
  forall i, i < 40 -> String.get i text1 = String.get i text2.
Proof.
  rewrite <- slice_to_agree. unfold title_of. split.
  - apply append_cancel_r.
  - now intros ->.
Qed.

(** ** The request boundary *)

(** X11. The history of an accepted request is the [history] member of the
    body, turn by turn and in order: each item is an object whose [role] and
    [content] strings are those of the turn; without the member the history
    is empty. *)
Theorem validated_history (fields : list (string * json)) (request : QueryRequest) :
  validate_QueryRequest (JObj fields) = Some request ->
  match obj_get "history" fields with
  | None => history request = []
  | Some v =>
      exists items,
        v = JArr items /\
        Forall2 (fun item msg =>
                   exists members,
                     item = JObj members /\
                     obj_get "role" members = Some (JStr (role msg)) /\
                     obj_get "content" members = Some (JStr (content msg)))
                items (history request)
  end.
Proof.
  unfold validate_QueryRequest.
  destruct (obj_get "query" fields ≫= validate_str) as [q |]; simpl;
    [| discriminate].
  destruct (obj_get "history" fields) as [v |]; simpl.
  - destruct v as [| | | | items |]; simpl; try discriminate.
    destruct (mapM validate_Message items) as [h |] eqn:Hh; simpl;
      [| discriminate].
    intros [= <-]. simpl. exists items. split; [reflexivity |].
    apply mapM_Some in Hh. eapply Forall2_impl; [exact Hh |].
    intros item msg. unfold validate_Message.
    destruct item as [| | | | | members]; try discriminate.
    destruct (obj_get "role" members) as [[| | | r | |] |] eqn:Hr; simpl;
      try discriminate.
    destruct (obj_get "content" members) as [[| | | c | |] |] eqn:Hc; simpl;
      try discriminate.
    intros [= <-]. exists members. repeat split; assumption.
  - now intros [= <-].
Qed.

Lemma validated_history_witness :
  exists items,
    JArr [ JObj [("role", JStr "user"); ("content", JStr "hello")];
           JObj [("role", JStr "assistant"); ("content", JStr "hi, ask me anything")] ]
      = JArr items /\
    Forall2 (fun item msg =>
               exists members,
                 item = JObj members /\
                 obj_get "role" members = Some (JStr (role msg)) /\
                 obj_get "content" members = Some (JStr (content msg)))
            items (history Stub.request).
Proof.
  apply (validated_history
           [ ("query", JStr "what is rocq");
             ("history",
              JArr [ JObj [("role", JStr "user"); ("content", JStr "hello")];
                     JObj [("role", JStr "assistant");
                           ("content", JStr "hi, ask me anything")] ]) ]
           Stub.request).
  vm_compute. reflexivity.
Defined.

(** X12. One turn of the history that is not an object with a [role] and a
    [content] string is enough to reject the whole request: it is answered
    with the validation error, and neither provider is called nor anything
    printed. *)
Theorem malformed_turn_rejects_request (P : Providers)
    (fields : list (string * json)) (items : list json) (log : list event) :
  obj_get "history" fields = Some (JArr items) ->
  Exists (fun item => validate_Message item = None) items ->
  post_chat P (JObj fields) log = (log, UnprocessableEntity).
Proof.
  intros Hhistory Hex. unfold post_chat, validate_QueryRequest.
  rewrite Hhistory. simpl. apply mapM_None in Hex. rewrite Hex.
  now destruct (obj_get "query" fields ≫= validate_str).
Qed.

Lemma malformed_turn_rejects_request_witness :
  post_chat Stub.providers (JObj Sample.malformed_body) []
    = ([], UnprocessableEntity).
Proof.
  apply (malformed_turn_rejects_request Stub.providers Sample.malformed_body
           [ JObj [("role", JStr "user"); ("content", JStr "hello")];
             JStr "hi, ask me anything" ]).
  - vm_compute. reflexivity.
  - apply Exists_cons_tl, Exists_cons_hd. reflexivity.
Defined.

(** X13. [POST /chat] has three answers and no other: the validation error,
    when the body is not a valid request, with nothing logged; 200 with an
    object of exactly the two members [answer] and [sources]; or 500 with an
    object of the single member [detail]. *)
Theorem post_chat_answers (P : Providers) (body : json) (log : list event) :
  match snd (post_chat P body log) with
  | UnprocessableEntity =>
      validate_QueryRequest body = None /\ fst (post_chat P body log) = log
  | JSONResponse status payload =>
      (exists request, validate_QueryRequest body = Some request) /\
      ((status = 200 /\
        exists text srcs,
          payload = JObj [("answer", JStr text); ("sources", JArr srcs)]) \/
       (status = 500 /\
        exists text, payload = JObj [("detail", JStr text)]))
  end.
Proof.
  unfold post_chat.
  destruct (validate_QueryRequest body) as [request |]; [| now split].
  rewrite chat_endpoint_run.
  repeat match goal with
         | |- context [match ?x with inl _ => _ | inr _ => _ end] => destruct x
         end; simpl; (split; [now exists request |]);
    first [ now (right; split; [reflexivity | eexists])
          | now (left; split; [reflexivity | do 2 eexists]) ].
Qed.

(** ** Configuration *)

(** X14. Loading the module prints the warning exactly when one of the two
    API keys is unset or set to the empty string, and goes on in either
    case: a missing key never stops the start-up. *)
Theorem verify_keys_spec (environ : pydict) (log : list event) :
  snd (@verify_keys exn environ log) = inr tt /\
  (fst (@verify_keys exn environ log) = log <->
   exists tavily groq,
     environ !! "TAVILY_API_KEY" = Some tavily /\ tavily <> "" /\
     environ !! "GROQ_API_KEY" = Some groq /\ groq <> "") /\
  (fst (@verify_keys exn environ log) <> log ->
   fst (@verify_keys exn environ log) = log ++ [Printed keys_warning]).
Proof.
  unfold verify_keys, os_getenv, print, IO.emit, IO.ret.
  assert (forall ev : event, log ++ [ev] <> log) as Hgrow.
  { intros ev Heq. apply (f_equal length) in Heq. rewrite length_app in Heq.
    simpl in Heq. lia. }
  destruct (environ !! "TAVILY_API_KEY") as [[| c1 t] |],
           (environ !! "GROQ_API_KEY") as [[| c2 g] |]; simpl;
    (split; [reflexivity |]); (split; [split |]);
    try (intros Heq; now apply Hgrow in Heq);
    try (intros (tavily & groq & Ht & Hnt & Hg & Hng); congruence);
    try reflexivity; try congruence.
  intros _. exists (String c1 t), (String c2 g). repeat split; congruence.
Qed.

Example verify_keys_both_set :
  @verify_keys exn Sample.both_keys [] = ([], inr tt).
Proof. vm_compute. reflexivity. Qed.

Example verify_keys_empty_key :
  @verify_keys exn Sample.empty_key [] = ([Printed keys_warning], inr tt).
Proof. vm_compute. reflexivity. Qed.

Example get_root_answer :
  get_root [] = ([], JSONResponse 200
                       (JObj [("message", JStr "Perplex-Mini Backend is Running!")])).
Proof. reflexivity. Qed.

(** ** From the body to the model call *)




